(** * libcamera 2D plane transforms (src/libcamera/transform.cpp)

    A shallow embedding of the [Transform] algebra: the composition
    operator, the inversion table, the rotation constructor and the name
    table, followed by the properties the specification states about them.

    [Transform] is an [enum class] over [int]; its values are modelled by
    their underlying integer, in [Z], and the bitwise operators by
    [Z.land], [Z.lor] and [Z.lxor], which agree with two's complement
    arithmetic at every width. *)

From Stdlib Require Import ZArith Lia List String Bool.
From stdpp Require Import base gmap.
Import ListNotations.

Local Open Scope Z_scope.

(** ** The enumeration and its bitwise operators *)

Definition Transform : Type := Z.

(** Modelled from the spec: the enumerators are declared in transform.h,
    which is not part of the sources; the numeric values are the ones of
    the specification's table (and of the documentation of the enum in
    transform.cpp: "Numeric value: 0 (no bits set)", ...). *)
Definition Identity : Transform := 0.
Definition Rot0 : Transform := Identity.
Definition HFlip : Transform := 1.
Definition VFlip : Transform := 2.
Definition HVFlip : Transform := 3.
Definition Rot180 : Transform := HVFlip.
Definition Transpose : Transform := 4.
Definition Rot270 : Transform := 5.
Definition Rot90 : Transform := 6.
Definition Rot180Transpose : Transform := 7.

(** The eight enumerators, in the order of their values. *)
Definition all_transforms : list Transform :=
  [Identity; HFlip; VFlip; HVFlip; Transpose; Rot270; Rot90; Rot180Transpose].

(** The value space of the enumeration: the 3-bit patterns. *)
Definition is_transform (t : Transform) : Prop := 0 <= t <= 7.

Definition is_transformb (t : Transform) : bool := (0 <=? t) && (t <=? 7).

(** Modelled from the spec: [operator&], [operator|] and [operator^] are
    defined in transform.h, which is not part of the sources; they
    "operate purely on the 3-bit pattern" ("Apply bitwise AND operator
    between the bits in the two transforms"). *)
Definition operator_and (t0 t1 : Transform) : Transform := Z.land t0 t1.
Definition operator_or (t0 t1 : Transform) : Transform := Z.lor t0 t1.
Definition operator_xor (t0 t1 : Transform) : Transform := Z.lxor t0 t1.

(** Modelled from the spec: [operator!] is defined in transform.h, which is
    not part of the sources; it returns "true for the Identity value only,
    false otherwise". *)
Definition operator_not (t : Transform) : bool := t =? Identity.

(** Modelled from the spec: [operator~] is defined in transform.h, which is
    not part of the sources; it returns "the transform with all the bits
    inverted individually", that is, every bit of the 3-bit pattern is
    flipped. *)
Definition operator_compl (t : Transform) : Transform :=
  Z.land (Z.lnot t) 7.

(** ** Composition: [Transform operator*(Transform t1, Transform t0)] *)

Definition operator_mul (t1 t0 : Transform) : Transform :=
  let reordered := t1 in
  let reordered :=
    if negb (operator_not (operator_and t0 Transpose)) then
      let reordered := operator_and t1 Transpose in
      let reordered :=
        if negb (operator_not (operator_and t1 HFlip))
        then operator_or reordered VFlip else reordered in
      let reordered :=
        if negb (operator_not (operator_and t1 VFlip))
        then operator_or reordered HFlip else reordered in
      reordered
    else reordered in
  operator_xor reordered t0.

(** ** Inversion: [Transform operator-(Transform t)] *)

Definition inverses : list Transform :=
  [Identity; HFlip; VFlip; HVFlip; Transpose; Rot90; Rot270; Rot180Transpose].

(** Reading a C array at an [int] index: defined inside the array only. *)
Definition array_at {A : Type} (a : list A) (i : Z) : option A :=
  if i <? 0 then None else nth_error a (Z.to_nat i).

Definition operator_neg (t : Transform) : option Transform :=
  array_at inverses t.

(** ** Names: [const char *transformToString(Transform t)] *)

Definition strings : list string :=
  ["identity"; "hflip"; "vflip"; "hvflip";
   "transpose"; "rot270"; "rot90"; "rot180transpose"]%string.

Definition transformToString (t : Transform) : option string :=
  array_at strings t.

(** ** The documented effect of a transform on a rectangle

    The documentation of the enum illustrates each transform "with its
    nominal effect on a rectangle with vertices labelled A, B, C and D",
    and fixes the order of the three basic operations: "first the two flip
    operations [...] and finally any transpose operation". *)

Section Rectangle.
Context {V : Type}.

(** The rectangle drawn as
<<
    A-B
    | |
    C-D
>>  *)
Record Rect : Type := mkRect { vA : V; vB : V; vC : V; vD : V }.

Definition hflip (r : Rect) : Rect := mkRect (vB r) (vA r) (vD r) (vC r).
Definition vflip (r : Rect) : Rect := mkRect (vC r) (vD r) (vA r) (vB r).
Definition transpose (r : Rect) : Rect := mkRect (vA r) (vC r) (vB r) (vD r).

Definition has_bit (t bit : Transform) : bool :=
  negb (operator_not (operator_and t bit)).

Definition apply_transform (t : Transform) (r : Rect) : Rect :=
  let r := if has_bit t HFlip then hflip r else r in
  let r := if has_bit t VFlip then vflip r else r in
  if has_bit t Transpose then transpose r else r.
End Rectangle.

Arguments Rect V : clear implicits.

(** ** A store of [bool] objects, for the [bool *success] out-parameter *)

Module Mem.
Definition loc : Type := nat.

(** A [bool *]: null, or the address of a [bool] object. *)
Inductive ptr : Type :=
| nullptr
| addr (l : loc).

(** The store, and the writes performed so far (oldest first). *)
Record mem : Type := mkMem {
  cells : gmap loc bool;
  writes : list (loc * bool)
}.

Definition M (A : Type) : Type := mem -> A * mem.

Definition ret {A : Type} (a : A) : M A := fun m => (a, m).

Definition bind {A B : Type} (c : M A) (k : A -> M B) : M B :=
  fun m => let '(a, m') := c m in k a m'.

(** [*p = v] for a non-null [p]. *)
Definition store (l : loc) (v : bool) : M unit :=
  fun m => (tt, mkMem (<[l := v]> (cells m)) (writes m ++ [(l, v)])).

Definition load (l : loc) (m : mem) : option bool := cells m !! l.
End Mem.

Declare Scope mem_scope.
Delimit Scope mem_scope with mem.
Notation "c1 ;; c2" := (Mem.bind c1 (fun _ => c2))
  (at level 100, c2 at level 200, right associativity) : mem_scope.

(** ** Rotations: [Transform transformFromRotation(int angle, bool *success)] *)

(** Arithmetic on [int] wraps around at 32 bits. *)
Definition int_wrap (z : Z) : Z := (z + 2 ^ 31) mod 2 ^ 32 - 2 ^ 31.

(** The first three lines of the function: [angle = angle % 360] (the
    remainder of C++ truncates towards zero) and the adjustment of a
    negative remainder. *)
Definition normalize_angle (angle : Z) : Z :=
  let angle := Z.rem angle 360 in
  if angle <? 0 then int_wrap (angle + 360) else angle.

(** [if (success != nullptr) *success = v;] *)
Definition set_success (success : Mem.ptr) (v : bool) : Mem.M unit :=
  match success with
  | Mem.nullptr => Mem.ret tt
  | Mem.addr l => Mem.store l v
  end.

Definition transformFromRotation (angle : Z) (success : Mem.ptr)
  : Mem.M Transform :=
  (let angle := normalize_angle angle in
   set_success success true ;;
   if angle =? 0 then Mem.ret Identity
   else if angle =? 90 then Mem.ret Rot90
   else if angle =? 180 then Mem.ret Rot180
   else if angle =? 270 then Mem.ret Rot270
   else
     (set_success success false ;;
      Mem.ret Identity))%mem.

(** The caller's view of the out-parameter:
    [bool ok; Transform t = transformFromRotation(angle, &ok);] with [ok]
    stored at [l], followed by a read of [ok]. *)
Definition fromRotation (angle : Z) (l : Mem.loc) (m : Mem.mem)
  : Transform * option bool :=
  let '(t, m') := transformFromRotation angle (Mem.addr l) m in
  (t, Mem.load l m').

(** Associativity of [operator*], decided over the 512 triples. *)
Definition assoc_check : bool :=
  forallb (fun a =>
    forallb (fun b =>
      forallb (fun c =>
        operator_mul (operator_mul a b) c =? operator_mul a (operator_mul b c))
        all_transforms)
      all_transforms)
    all_transforms.

(** [t * t * ... * t], [n] factors. *)
Fixpoint mul_pow (t : Transform) (n : nat) : Transform :=
  match n with
  | O => Identity
  | S n' => operator_mul t (mul_pow t n')
  end.

(** The transform [transformFromRotation] returns as a function of the
    residue of the angle modulo 360 (the [switch] of the function). *)
Definition rotation_of_residue (n : Z) : Transform :=
  if n =? 0 then Identity
  else if n =? 90 then Rot90
  else if n =? 180 then Rot180
  else if n =? 270 then Rot270
  else Identity.

(** * Properties *)

(** ** The domain *)

Lemma is_transform_cases (t : Transform) :
  is_transform t ->
  t = Identity \/ t = HFlip \/ t = VFlip \/ t = HVFlip \/
  t = Transpose \/ t = Rot270 \/ t = Rot90 \/ t = Rot180Transpose.
Proof.
  unfold is_transform, Identity, HFlip, VFlip, HVFlip, Transpose, Rot270,
    Rot90, Rot180Transpose.
  lia.
Qed.

Ltac each_transform H :=
  apply is_transform_cases in H;
  destruct H as [H | [H | [H | [H | [H | [H | [H | H]]]]]]];
  rewrite H in *; clear H.

Lemma is_transform_In (t : Transform) :
  is_transform t <-> In t all_transforms.
Proof.
  split.
  - intros H. each_transform H; simpl; tauto.
  - simpl. unfold is_transform, Identity, HFlip, VFlip, HVFlip, Transpose,
      Rot270, Rot90, Rot180Transpose. lia.
Qed.

Lemma is_transformb_spec (t : Transform) :
  is_transformb t = true <-> is_transform t.
Proof.
  unfold is_transformb, is_transform.
  rewrite andb_true_iff, Z.leb_le, Z.leb_le. tauto.
Qed.

Lemma all_transforms_NoDup : NoDup all_transforms.
Proof.
  apply (bool_decide_unpack _). vm_compute. reflexivity.
Qed.

(** Every 3-bit pattern is inhabited: the operators stay in the domain. *)
Lemma operator_mul_closed (t1 t0 : Transform) :
  is_transform t1 -> is_transform t0 -> is_transform (operator_mul t1 t0).
Proof.
  intros H1 H0. each_transform H1; each_transform H0;
    vm_compute; split; discriminate.
Qed.

Lemma operator_neg_closed (t i : Transform) :
  is_transform t -> operator_neg t = Some i -> is_transform i.
Proof.
  intros H. each_transform H; vm_compute; intros [= <-]; split; discriminate.
Qed.

(** The eight diagrams of the documentation of the enum. *)
Example diagrams :
  map (fun t => apply_transform t (mkRect "A" "B" "C" "D")%string)
    all_transforms
  = [ mkRect "A" "B" "C" "D";  mkRect "B" "A" "D" "C";
      mkRect "C" "D" "A" "B";  mkRect "D" "C" "B" "A";
      mkRect "A" "C" "B" "D";  mkRect "B" "D" "A" "C";
      mkRect "C" "A" "D" "B";  mkRect "D" "B" "C" "A" ]%string.
Proof. reflexivity. Qed.

(** ** Composition *)

(** The composite acts on a rectangle as the right operand followed by the
    left one. *)
Lemma apply_operator_mul {V : Type} (t1 t0 : Transform) (r : Rect V) :
  is_transform t1 -> is_transform t0 ->
  apply_transform (operator_mul t1 t0) r
  = apply_transform t1 (apply_transform t0 r).
Proof.
  intros H1 H0. destruct r as [a b c d].
  each_transform H1; each_transform H0; reflexivity.
Qed.

(** C1: composition applies the right operand first and the left one
    second, and it is not commutative: [Transpose * HFlip] is [Rot270]
    (value 5), [HFlip * Transpose] is [Rot90] (value 6), and the two
    results differ. *)
Theorem operator_mul_order_noncommutative :
  (forall (V : Type) (t1 t0 : Transform) (r : Rect V),
      is_transform t1 -> is_transform t0 ->
      apply_transform (operator_mul t1 t0) r
      = apply_transform t1 (apply_transform t0 r))
  /\ operator_mul Transpose HFlip = Rot270 /\ Rot270 = 5
  /\ operator_mul HFlip Transpose = Rot90 /\ Rot90 = 6
  /\ operator_mul Transpose HFlip <> operator_mul HFlip Transpose.
Proof.
  split; [intros V t1 t0 r; apply apply_operator_mul|].
  repeat split; try reflexivity.
  vm_compute. discriminate.
Qed.

Lemma operator_mul_order_noncommutative_witness :
  apply_transform (operator_mul Transpose HFlip) (mkRect 1 2 3 4)
  = apply_transform Transpose (apply_transform HFlip (mkRect 1 2 3 4)).
Proof.
  apply (proj1 operator_mul_order_noncommutative Z Transpose HFlip);
    unfold is_transform, Transpose, HFlip; lia.
Defined.

Lemma assoc_check_true : assoc_check = true.
Proof. vm_compute. reflexivity. Qed.

(** C2: composition is associative over the whole domain (all 512
    triples of transforms). *)
Theorem operator_mul_assoc (a b c : Transform) :
  is_transform a -> is_transform b -> is_transform c ->
  operator_mul (operator_mul a b) c = operator_mul a (operator_mul b c).
Proof.
  rewrite !is_transform_In. intros Ha Hb Hc.
  pose proof assoc_check_true as H. unfold assoc_check in H.
  rewrite forallb_forall in H. specialize (H a Ha).
  rewrite forallb_forall in H. specialize (H b Hb).
  rewrite forallb_forall in H. specialize (H c Hc).
  now apply Z.eqb_eq in H.
Qed.

Lemma operator_mul_assoc_witness :
  operator_mul (operator_mul Rot90 HFlip) Transpose
  = operator_mul Rot90 (operator_mul HFlip Transpose).
Proof.
  apply (operator_mul_assoc Rot90 HFlip Transpose);
    unfold is_transform, Rot90, HFlip, Transpose; lia.
Defined.

Lemma operator_mul_Identity_l (t : Transform) : operator_mul Identity t = t.
Proof.
  unfold operator_mul.
  destruct (negb (operator_not (operator_and t Transpose))); reflexivity.
Qed.

Lemma operator_mul_Identity_r (t : Transform) : operator_mul t Identity = t.
Proof.
  unfold operator_mul. simpl. apply Z.lxor_0_r.
Qed.

(** C3: [Identity] (value 0) is a two-sided neutral element of
    composition. *)
Theorem operator_mul_Identity (t : Transform) :
  is_transform t ->
  Identity = 0 /\ operator_mul Identity t = t /\ operator_mul t Identity = t.
Proof.
  intros _. split; [reflexivity|].
  split; [apply operator_mul_Identity_l | apply operator_mul_Identity_r].
Qed.

Lemma operator_mul_Identity_witness :
  Identity = 0 /\ operator_mul Identity Rot90 = Rot90
  /\ operator_mul Rot90 Identity = Rot90.
Proof.
  apply (operator_mul_Identity Rot90). unfold is_transform, Rot90. lia.
Defined.

(** When the right operand has no transpose, nothing is reordered. *)
Lemma operator_mul_no_transpose (t1 t0 : Transform) :
  operator_and t0 Transpose = Identity ->
  operator_mul t1 t0 = operator_xor t1 t0.
Proof.
  intros H. unfold operator_mul. rewrite H. reflexivity.
Qed.

(** C9: whenever the transpose bit of the right operand is clear,
    composition is the bitwise XOR of the two operands. *)
Theorem operator_mul_xor (l r : Transform) :
  is_transform l -> is_transform r ->
  Z.land r Transpose = 0 ->
  operator_mul l r = Z.lxor l r.
Proof.
  intros _ _ H. now apply operator_mul_no_transpose.
Qed.

Lemma operator_mul_xor_witness :
  operator_mul Rot90 HVFlip = Z.lxor Rot90 HVFlip.
Proof.
  apply (operator_mul_xor Rot90 HVFlip);
    [unfold is_transform, Rot90; lia
    |unfold is_transform, HVFlip; lia
    |reflexivity].
Defined.

(** ** Inversion *)

(** C4: [operator-] is a two-sided inverse for composition: on every
    transform it yields a transform whose composites with the argument, on
    either side, are [Identity]. *)
Theorem operator_neg_inverse (t : Transform) :
  is_transform t ->
  exists i : Transform,
    operator_neg t = Some i /\ is_transform i
    /\ operator_mul t i = Identity /\ operator_mul i t = Identity.
Proof.
  intros H. each_transform H;
    (eexists; split; [reflexivity|]);
    (split; [unfold is_transform; vm_compute; split; discriminate|]);
    split; reflexivity.
Qed.

Lemma operator_neg_inverse_witness :
  exists i : Transform,
    operator_neg Rot90 = Some i /\ is_transform i
    /\ operator_mul Rot90 i = Identity /\ operator_mul i Rot90 = Identity.
Proof.
  apply (operator_neg_inverse Rot90). unfold is_transform, Rot90. lia.
Defined.

(** C5: the table [inverses] swaps [Rot90] and [Rot270] and fixes the six
    other transforms. *)
Theorem operator_neg_table :
  operator_neg Rot90 = Some Rot270
  /\ operator_neg Rot270 = Some Rot90
  /\ (forall t : Transform,
        is_transform t -> t <> Rot90 -> t <> Rot270 ->
        operator_neg t = Some t).
Proof.
  split; [reflexivity|]. split; [reflexivity|].
  intros t H N90 N270. each_transform H; try reflexivity; congruence.
Qed.

Lemma operator_neg_table_witness :
  operator_neg Rot180Transpose = Some Rot180Transpose.
Proof.
  apply (proj2 (proj2 operator_neg_table) Rot180Transpose);
    unfold is_transform, Rot180Transpose, Rot90, Rot270; lia.
Defined.

(** ** Names *)

(** C7: [transformToString] is the lookup, by value, in the table
    identity, hflip, vflip, hvflip, transpose, rot270, rot90,
    rot180transpose: position 5 is "rot270" and position 6 is "rot90". *)
Theorem transformToString_table :
  map transformToString [0; 1; 2; 3; 4; 5; 6; 7]
  = [ Some "identity"; Some "hflip"; Some "vflip"; Some "hvflip";
      Some "transpose"; Some "rot270"; Some "rot90";
      Some "rot180transpose" ]%string
  /\ Rot90 = 6 /\ transformToString Rot90 = Some "rot90"%string
  /\ Rot270 = 5 /\ transformToString Rot270 = Some "rot270"%string.
Proof.
  repeat split; reflexivity.
Qed.

(** ** Bitwise complement *)

(** C8, the example as the specification states it: the complement of
    [HFlip] is not [Rot180Transpose]. Flipping the three bits of 001 gives
    110, which is [7 - 1 = 6], the value of [Rot90]. *)
Lemma operator_compl_HFlip_not_Rot180Transpose :
  operator_compl HFlip = 7 - HFlip
  /\ operator_compl HFlip <> Rot180Transpose.
Proof.
  split; [reflexivity|].
  intros H. vm_compute in H. discriminate H.
Qed.

(** C8, amended: the bitwise complement maps the value [x] to [7 - x],
    flipping each of the three bits; it is an involution, and it is not
    the inversion: the complement of [HFlip] is [Rot90], its inverse is
    [HFlip]. *)
Theorem operator_compl_spec :
  (forall t : Transform,
      is_transform t ->
      operator_compl t = 7 - t
      /\ is_transform (operator_compl t)
      /\ (forall i : Z, 0 <= i < 3 ->
            Z.testbit (operator_compl t) i = negb (Z.testbit t i))
      /\ operator_compl (operator_compl t) = t)
  /\ operator_compl HFlip = Rot90
  /\ operator_neg HFlip = Some HFlip
  /\ operator_neg HFlip <> Some (operator_compl HFlip).
Proof.
  split.
  - intros t H.
    assert (Hbits : forall i : Z, 0 <= i < 3 -> i = 0 \/ i = 1 \/ i = 2)
      by (intros; lia).
    each_transform H;
      (split; [reflexivity|]);
      (split; [vm_compute; split; discriminate|]);
      (split; [|reflexivity]);
      intros i Hi; destruct (Hbits i Hi) as [-> | [-> | ->]]; reflexivity.
  - split; [reflexivity|]. split; [reflexivity|].
    intros H. vm_compute in H. discriminate H.
Qed.

Lemma operator_compl_spec_witness :
  operator_compl Rot90 = 7 - Rot90
  /\ is_transform (operator_compl Rot90)
  /\ (forall i : Z, 0 <= i < 3 ->
        Z.testbit (operator_compl Rot90) i = negb (Z.testbit Rot90 i))
  /\ operator_compl (operator_compl Rot90) = Rot90.
Proof.
  apply (proj1 operator_compl_spec Rot90). unfold is_transform, Rot90. lia.
Defined.

(** ** Rotations *)

(** The normalised angle is the mathematical residue modulo 360; the
    addition of 360 never wraps. *)
Lemma normalize_angle_mod (angle : Z) : normalize_angle angle = angle mod 360.
Proof.
  unfold normalize_angle, int_wrap.
  change (2 ^ 31) with 2147483648. change (2 ^ 32) with 4294967296.
  destruct (Z.ltb_spec (Z.rem angle 360) 0) as [Hneg | Hpos].
  - rewrite Z.mod_small.
    + pose proof (Z.rem_bound_neg_pos angle 360) as Hb.
      Z.to_euclidean_division_equations. lia.
    + Z.to_euclidean_division_equations. lia.
  - Z.to_euclidean_division_equations. lia.
Qed.

Lemma normalize_angle_range (angle : Z) : 0 <= normalize_angle angle < 360.
Proof.
  rewrite normalize_angle_mod. apply Z.mod_pos_bound. lia.
Qed.

(** What a caller that passes the address of a flag gets back. *)
Lemma fromRotation_cases (angle : Z) (l : Mem.loc) (m : Mem.mem) :
  fromRotation angle l m
  = let n := normalize_angle angle in
    if n =? 0 then (Identity, Some true)
    else if n =? 90 then (Rot90, Some true)
    else if n =? 180 then (Rot180, Some true)
    else if n =? 270 then (Rot270, Some true)
    else (Identity, Some false).
Proof.
  unfold fromRotation, transformFromRotation, Mem.bind, set_success,
    Mem.store, Mem.ret, Mem.load.
  cbv zeta.
  repeat (destruct (normalize_angle angle =? _); simpl;
          [rewrite lookup_insert_eq; reflexivity|]).
  rewrite lookup_insert_eq. reflexivity.
Qed.

(** With a flag, the first write stores [true]; a second write, of
    [false], follows exactly for the angles that are no multiple of 90. *)
Lemma transformFromRotation_writes (angle : Z) (l : Mem.loc) (m : Mem.mem) :
  let n := normalize_angle angle in
  Mem.writes (snd (transformFromRotation angle (Mem.addr l) m))
  = Mem.writes m ++
    (if (n =? 0) || (n =? 90) || (n =? 180) || (n =? 270)
     then [(l, true)] else [(l, true); (l, false)]).
Proof.
  unfold transformFromRotation, Mem.bind, set_success, Mem.store, Mem.ret.
  cbv zeta.
  repeat (destruct (normalize_angle angle =? _); simpl; [reflexivity|]).
  rewrite <- app_assoc. reflexivity.
Qed.

(** C6: [transformFromRotation] reduces the angle modulo 360 into
    [0, 360); the normalised angles 0, 90, 180 and 270 give [Identity],
    [Rot90], [Rot180] and [Rot270] with the flag set to true, every other
    angle gives [Identity] with the flag set to false. In particular -90
    gives [Rot270], 450 gives [Rot90] and 45 fails. *)
Theorem transformFromRotation_spec :
  (forall (angle : Z) (l : Mem.loc) (m : Mem.mem),
      let n := normalize_angle angle in
      n = angle mod 360 /\ 0 <= n < 360
      /\ (n = 0 -> fromRotation angle l m = (Identity, Some true))
      /\ (n = 90 -> fromRotation angle l m = (Rot90, Some true))
      /\ (n = 180 -> fromRotation angle l m = (Rot180, Some true))
      /\ (n = 270 -> fromRotation angle l m = (Rot270, Some true))
      /\ (n <> 0 -> n <> 90 -> n <> 180 -> n <> 270 ->
          fromRotation angle l m = (Identity, Some false)))
  /\ (forall (l : Mem.loc) (m : Mem.mem),
        fromRotation (-90) l m = (Rot270, Some true)
        /\ fromRotation 450 l m = (Rot90, Some true)
        /\ fromRotation 45 l m = (Identity, Some false)).
Proof.
  split.
  - intros angle l m n.
    split; [apply normalize_angle_mod|].
    split; [apply normalize_angle_range|].
    rewrite fromRotation_cases. fold n. cbv zeta.
    repeat split.
    + intros ->. reflexivity.
    + intros ->. reflexivity.
    + intros ->. reflexivity.
    + intros ->. reflexivity.
    + intros H0 H90 H180 H270.
      apply Z.eqb_neq in H0, H90, H180, H270.
      rewrite H0, H90, H180, H270. reflexivity.
  - intros l m. rewrite !fromRotation_cases. repeat split.
Qed.

Lemma transformFromRotation_spec_witness :
  fromRotation (-270) 0%nat (Mem.mkMem ∅ []) = (Rot90, Some true).
Proof.
  apply (proj1 transformFromRotation_spec (-270) 0%nat (Mem.mkMem ∅ [])).
  reflexivity.
Defined.

(** C10: with a null [success] the function writes nothing: the store and
    the list of writes are the ones it started from; and the transform it
    returns is the one it returns, for the same angle, with any non-null
    [success] and any store. *)
Theorem transformFromRotation_nullptr (angle : Z) (m : Mem.mem) :
  snd (transformFromRotation angle Mem.nullptr m) = m
  /\ Mem.writes (snd (transformFromRotation angle Mem.nullptr m))
     = Mem.writes m
  /\ (forall (l : Mem.loc) (m' : Mem.mem),
        fst (transformFromRotation angle Mem.nullptr m)
        = fst (transformFromRotation angle (Mem.addr l) m')).
Proof.
  unfold transformFromRotation, Mem.bind, set_success, Mem.store, Mem.ret.
  cbv zeta.
  repeat split; intros;
    repeat (destruct (normalize_angle angle =? _); simpl; [reflexivity|]);
    reflexivity.
Qed.

(** * Further properties of the group operators *)

Ltac transform_range := unfold is_transform; vm_compute; split; discriminate.

Lemma operator_mul_closed_witness :
  is_transform (operator_mul Rot270 Transpose).
Proof.
  apply (operator_mul_closed Rot270 Transpose);
    unfold is_transform, Rot270, Transpose; lia.
Defined.

(** The composite contains a transposition exactly when one of the two
    operands does: its transpose bit is the XOR of theirs. *)
Theorem operator_mul_transpose_bit (t1 t0 : Transform) :
  is_transform t1 -> is_transform t0 ->
  operator_and (operator_mul t1 t0) Transpose
  = operator_xor (operator_and t1 Transpose) (operator_and t0 Transpose).
Proof.
  intros H1 H0. each_transform H1; each_transform H0; reflexivity.
Qed.

Lemma operator_mul_transpose_bit_witness :
  operator_and (operator_mul Rot90 Rot270) Transpose
  = operator_xor (operator_and Rot90 Transpose) (operator_and Rot270 Transpose).
Proof.
  apply (operator_mul_transpose_bit Rot90 Rot270);
    unfold is_transform, Rot90, Rot270; lia.
Defined.

(** Composition is the XOR of the bit patterns exactly when the right
    operand has no transposition or the left operand has both flips or
    none: swapping the two flip bits of the left operand is then void. *)
Theorem operator_mul_xor_iff (l r : Transform) :
  is_transform l -> is_transform r ->
  operator_mul l r = operator_xor l r
  <-> (operator_and r Transpose = Identity
       \/ has_bit l HFlip = has_bit l VFlip).
Proof.
  intros Hl Hr. each_transform Hl; each_transform Hr; vm_compute;
    (split; [intros H; first [left; reflexivity | right; reflexivity
                            | discriminate H]
            |intros [H | H]; first [reflexivity | discriminate H]]).
Qed.

Lemma operator_mul_xor_iff_witness :
  operator_mul HFlip Transpose = operator_xor HFlip Transpose
  <-> (operator_and Transpose Transpose = Identity
       \/ has_bit HFlip HFlip = has_bit HFlip VFlip).
Proof.
  apply (operator_mul_xor_iff HFlip Transpose);
    unfold is_transform, HFlip, Transpose; lia.
Defined.

(** Composition cancels on both sides: multiplying by a fixed transform,
    on the left or on the right, is injective. *)
Theorem operator_mul_cancel (a b c : Transform) :
  is_transform a -> is_transform b -> is_transform c ->
  (operator_mul a b = operator_mul a c -> b = c)
  /\ (operator_mul b a = operator_mul c a -> b = c).
Proof.
  intros Ha Hb Hc.
  each_transform Ha; each_transform Hb; each_transform Hc;
    split; vm_compute; intros H; first [reflexivity | discriminate H].
Qed.

Lemma operator_mul_cancel_witness :
  (operator_mul Rot90 HFlip = operator_mul Rot90 VFlip -> HFlip = VFlip)
  /\ (operator_mul HFlip Rot90 = operator_mul VFlip Rot90 -> HFlip = VFlip).
Proof.
  apply (operator_mul_cancel Rot90 HFlip VFlip);
    unfold is_transform, Rot90, HFlip, VFlip; lia.
Defined.

(** The transforms that commute with every transform are [Identity] and
    [Rot180], and no other. *)
Theorem operator_mul_center (a : Transform) :
  is_transform a ->
  (forall b : Transform,
      is_transform b -> operator_mul a b = operator_mul b a)
  <-> (a = Identity \/ a = Rot180).
Proof.
  intros Ha. split.
  - intros H.
    assert (H4 : is_transform Transpose) by transform_range.
    assert (H1 : is_transform HFlip) by transform_range.
    pose proof (H Transpose H4) as E4. pose proof (H HFlip H1) as E1.
    clear H H4 H1.
    each_transform Ha; vm_compute in E4, E1;
      first [left; reflexivity | right; reflexivity
            | discriminate E4 | discriminate E1].
  - intros [-> | ->] b Hb; each_transform Hb; reflexivity.
Qed.

Lemma operator_mul_center_witness :
  (forall b : Transform,
      is_transform b -> operator_mul Rot180 b = operator_mul b Rot180)
  <-> (Rot180 = Identity \/ Rot180 = Rot180).
Proof.
  apply (operator_mul_center Rot180). transform_range.
Defined.

(** The horizontal flip and the rotation by 90 degrees generate the eight
    transforms: each one is a power of [Rot90] times a power of [HFlip]. *)
Theorem generated_by_Rot90_HFlip (t : Transform) :
  is_transform t ->
  exists i j : nat,
    (i < 4)%nat /\ (j < 2)%nat
    /\ t = operator_mul (mul_pow Rot90 i) (mul_pow HFlip j).
Proof.
  intros H. each_transform H.
  - exists 0%nat, 0%nat. repeat split; lia.
  - exists 0%nat, 1%nat. repeat split; lia.
  - exists 2%nat, 1%nat. repeat split; lia.
  - exists 2%nat, 0%nat. repeat split; lia.
  - exists 3%nat, 1%nat. repeat split; lia.
  - exists 3%nat, 0%nat. repeat split; lia.
  - exists 1%nat, 0%nat. repeat split; lia.
  - exists 1%nat, 1%nat. repeat split; lia.
Qed.

Lemma generated_by_Rot90_HFlip_witness :
  exists i j : nat,
    (i < 4)%nat /\ (j < 2)%nat
    /\ Transpose = operator_mul (mul_pow Rot90 i) (mul_pow HFlip j).
Proof.
  apply (generated_by_Rot90_HFlip Transpose). transform_range.
Defined.

(** ** Inversion *)

(** Inverting twice gives the transform back. *)
Theorem operator_neg_involutive (t : Transform) :
  is_transform t ->
  exists i : Transform, operator_neg t = Some i /\ operator_neg i = Some t.
Proof.
  intros H. each_transform H; eexists; split; reflexivity.
Qed.

Lemma operator_neg_involutive_witness :
  exists i : Transform,
    operator_neg Rot270 = Some i /\ operator_neg i = Some Rot270.
Proof.
  apply (operator_neg_involutive Rot270). transform_range.
Defined.

(** The table holds the only inverses: two transforms whose composite is
    [Identity] are each the entry of the table for the other. *)
Theorem operator_neg_unique (a b : Transform) :
  is_transform a -> is_transform b ->
  operator_mul a b = Identity ->
  operator_neg a = Some b /\ operator_neg b = Some a.
Proof.
  intros Ha Hb. each_transform Ha; each_transform Hb;
    vm_compute; intros H; first [discriminate H | split; reflexivity].
Qed.

Lemma operator_neg_unique_witness :
  operator_neg Rot90 = Some Rot270 /\ operator_neg Rot270 = Some Rot90.
Proof.
  apply (operator_neg_unique Rot90 Rot270);
    [transform_range | transform_range | reflexivity].
Defined.

(** The inverse of a composite is the composite of the inverses in the
    opposite order. *)
Theorem operator_neg_mul (a b : Transform) :
  is_transform a -> is_transform b ->
  exists ia ib : Transform,
    operator_neg a = Some ia /\ operator_neg b = Some ib
    /\ operator_neg (operator_mul a b) = Some (operator_mul ib ia).
Proof.
  intros Ha Hb. each_transform Ha; each_transform Hb;
    do 2 eexists; (split; [reflexivity|]); split; reflexivity.
Qed.

Lemma operator_neg_mul_witness :
  exists ia ib : Transform,
    operator_neg Rot90 = Some ia /\ operator_neg HFlip = Some ib
    /\ operator_neg (operator_mul Rot90 HFlip) = Some (operator_mul ib ia).
Proof.
  apply (operator_neg_mul Rot90 HFlip); transform_range.
Defined.

(** ** The effect on a rectangle *)

(** Applying a transform and then its inverse, in either order, gives the
    rectangle back. *)
Theorem apply_operator_neg {V : Type} (t : Transform) (r : Rect V) :
  is_transform t ->
  exists i : Transform,
    operator_neg t = Some i
    /\ apply_transform i (apply_transform t r) = r
    /\ apply_transform t (apply_transform i r) = r.
Proof.
  intros H. destruct r as [a b c d].
  each_transform H; eexists; (split; [reflexivity|]); split; reflexivity.
Qed.

Lemma apply_operator_neg_witness :
  exists i : Transform,
    operator_neg Rot90 = Some i
    /\ apply_transform i (apply_transform Rot90 (mkRect 1 2 3 4))
       = mkRect 1 2 3 4
    /\ apply_transform Rot90 (apply_transform i (mkRect 1 2 3 4))
       = mkRect 1 2 3 4.
Proof.
  apply (apply_operator_neg Rot90 (mkRect 1 2 3 4)). transform_range.
Defined.

(** ** Names *)

(** Every transform has a name, and different transforms have different
    names. *)
Theorem transformToString_injective (t t' : Transform) :
  is_transform t -> is_transform t' ->
  (exists s : string, transformToString t = Some s)
  /\ (transformToString t = transformToString t' -> t = t').
Proof.
  intros Ht Ht'. split.
  - each_transform Ht; eexists; reflexivity.
  - each_transform Ht; each_transform Ht'; vm_compute; intros E;
      first [reflexivity | discriminate E].
Qed.

Lemma transformToString_injective_witness :
  (exists s : string, transformToString Rot90 = Some s)
  /\ (transformToString Rot90 = transformToString Rot270 -> Rot90 = Rot270).
Proof.
  apply (transformToString_injective Rot90 Rot270); transform_range.
Defined.

(** ** Rotations *)

(** The returned transform depends on the residue of the angle only, not
    on the pointer nor on the store. *)
Lemma transformFromRotation_fst (angle : Z) (p : Mem.ptr) (m : Mem.mem) :
  fst (transformFromRotation angle p m)
  = rotation_of_residue (angle mod 360).
Proof.
  unfold transformFromRotation. cbv zeta. rewrite normalize_angle_mod.
  unfold rotation_of_residue, Mem.bind, set_success, Mem.store, Mem.ret.
  destruct p;
    repeat (destruct (angle mod 360 =? _); simpl; [reflexivity|]);
    reflexivity.
Qed.

Lemma multiple_of_90_residue (a : Z) :
  a mod 90 = 0 ->
  a mod 360 = 0 \/ a mod 360 = 90 \/ a mod 360 = 180 \/ a mod 360 = 270.
Proof.
  intros H. Z.to_euclidean_division_equations. lia.
Qed.

(** The flag is set to true exactly for the multiples of 90 degrees. *)
Theorem transformFromRotation_success_iff
    (angle : Z) (l : Mem.loc) (m : Mem.mem) :
  snd (fromRotation angle l m) = Some (angle mod 90 =? 0).
Proof.
  rewrite fromRotation_cases. cbv zeta. rewrite normalize_angle_mod.
  assert (Hyes : forall n : Z,
             angle mod 360 = n -> n mod 90 = 0 -> (angle mod 90 =? 0) = true).
  { intros n E Hn. apply Z.eqb_eq.
    Z.to_euclidean_division_equations. lia. }
  destruct (Z.eqb_spec (angle mod 360) 0) as [E | N0];
    [simpl; now rewrite (Hyes 0 E)|].
  destruct (Z.eqb_spec (angle mod 360) 90) as [E | N90];
    [simpl; now rewrite (Hyes 90 E)|].
  destruct (Z.eqb_spec (angle mod 360) 180) as [E | N180];
    [simpl; now rewrite (Hyes 180 E)|].
  destruct (Z.eqb_spec (angle mod 360) 270) as [E | N270];
    [simpl; now rewrite (Hyes 270 E)|].
  simpl. f_equal. symmetry. apply Z.eqb_neq. intros H90.
  destruct (multiple_of_90_residue angle H90) as [? | [? | [? | ?]]];
    contradiction.
Qed.



(** The transform of the opposite angle is the inverse of the transform of
    the angle, for every angle. *)
Theorem transformFromRotation_opp
    (a : Z) (p p' : Mem.ptr) (m m' : Mem.mem) :
  operator_neg (fst (transformFromRotation a p m))
  = Some (fst (transformFromRotation (- a) p' m')).
Proof.
  rewrite !transformFromRotation_fst. unfold rotation_of_residue.
  assert (H : (a mod 360 = 0 /\ (- a) mod 360 = 0)
              \/ (0 < a mod 360 < 360 /\ (- a) mod 360 = 360 - a mod 360))
    by (Z.to_euclidean_division_equations; lia).
  destruct H as [[-> ->] | [Hr ->]]; [reflexivity|].
  destruct (Z.eqb_spec (a mod 360) 0) as [E | _]; [lia|].
  destruct (Z.eqb_spec (a mod 360) 90) as [-> | N90]; [reflexivity|].
  destruct (Z.eqb_spec (a mod 360) 180) as [-> | N180]; [reflexivity|].
  destruct (Z.eqb_spec (a mod 360) 270) as [-> | N270]; [reflexivity|].
  destruct (Z.eqb_spec (360 - a mod 360) 0) as [E | _]; [lia|].
  destruct (Z.eqb_spec (360 - a mod 360) 90) as [E | _]; [lia|].
  destruct (Z.eqb_spec (360 - a mod 360) 180) as [E | _]; [lia|].
  destruct (Z.eqb_spec (360 - a mod 360) 270) as [E | _]; [lia|].
  reflexivity.
Qed.


(** The only object the function writes is the flag: every other object
    of the store keeps its value, and each write is at the address of the
    flag. *)
Theorem transformFromRotation_frame
    (angle : Z) (l l' : Mem.loc) (m : Mem.mem) :
  l' <> l ->
  let m' := snd (transformFromRotation angle (Mem.addr l) m) in
  Mem.load l' m' = Mem.load l' m
  /\ exists ws : list (Mem.loc * bool),
       Mem.writes m' = Mem.writes m ++ ws
       /\ Forall (fun w => fst w = l) ws.
Proof.
  intros Hne m'. split.
  - subst m'.
    unfold transformFromRotation, Mem.bind, set_success, Mem.store, Mem.ret,
      Mem.load.
    cbv zeta.
    repeat (destruct (normalize_angle angle =? _); simpl;
            [rewrite lookup_insert_ne by congruence; reflexivity|]).
    rewrite !lookup_insert_ne by congruence. reflexivity.
  - subst m'. rewrite transformFromRotation_writes. cbv zeta.
    eexists. split; [reflexivity|].
    destruct (_ || _); repeat constructor.
Qed.

Lemma transformFromRotation_frame_witness :
  let m := Mem.mkMem (<[7%nat := false]> ∅) [] in
  let m' := snd (transformFromRotation 45 (Mem.addr 3%nat) m) in
  Mem.load 7%nat m' = Mem.load 7%nat m
  /\ exists ws : list (Mem.loc * bool),
       Mem.writes m' = Mem.writes m ++ ws
       /\ Forall (fun w => fst w = 3%nat) ws.
Proof.
  apply (transformFromRotation_frame 45 3%nat 7%nat). lia.
Defined.
